(** * Dromo headless import relay: a shallow embedding of [main.py]

    The service has two effectful request handlers:
    - [import_file]      (POST /import-file): S3 read, create import, upload;
    - [webhook_handler]  (POST /webhook): fetch result pointer, download,
      S3 write.

    Python values coming from JSON are modelled by [value]; the calls to
    boto3 and httpx are answered by a [World] and recorded, with their
    outcome, in a chronological [trace]; Python exceptions are the error
    side of a small state-and-exception monad [M].  Logging has no effect on
    control flow and is left out. *)

From Stdlib Require Import String Ascii List ZArith Lia Bool Floats DecimalString.
From Stdlib Require Strings.Byte.
Import ListNotations.
Local Open Scope string_scope.
Local Open Scope Z_scope.

(** ** Python values *)

Module Py.

(** The objects [json.loads] can build.  A [dict] keeps insertion order, so it
    is an association list; the parser never yields a key twice. *)
#[warnings="-register-all"]
Inductive value : Type :=
| JNull
| JBool (b : bool)
| JInt (z : Z)
| JFloat (f : float)
| JStr (s : string)
| JList (l : list value)
| JDict (d : list (string * value)).

Definition dict := list (string * value).

Fixpoint dict_get (d : dict) (k : string) : option value :=
  match d with
  | [] => None
  | (k', v) :: rest => if String.eqb k' k then Some v else dict_get rest k
  end.

Definition dict_mem (d : dict) (k : string) : bool :=
  match dict_get d k with Some _ => true | None => false end.

(** [d.get(k, default)] *)
Definition dict_get_or (d : dict) (k : string) (default : value) : value :=
  match dict_get d k with
  | Some x => x
  | None => default
  end.

Definition dict_keys (d : dict) : list string := map fst d.

(** [bool(v)], the test behind [if not v]. *)
Definition truthy (v : value) : bool :=
  match v with
  | JNull => false
  | JBool b => b
  | JInt z => negb (z =? 0)
  | JFloat f => negb (PrimFloat.eqb f 0%float)
  | JStr s => negb (String.eqb s "")
  | JList l => match l with [] => false | _ => true end
  | JDict d => match d with [] => false | _ => true end
  end.

(** Whether [json.dumps(v, allow_nan=False)] succeeds: no number in [v] is
    [nan] or an infinity (a [string] stands for well-formed text). *)
Fixpoint renderable (v : value) : bool :=
  match v with
  | JFloat f => PrimFloat.is_finite f
  | JList l => forallb renderable l
  | JDict d =>
      forallb (fun kv : string * value => let (_, x) := kv in renderable x) d
  | _ => true
  end.

(** [v == s] for a string literal [s]. *)
Definition eq_str (v : value) (s : string) : bool :=
  match v with
  | JStr s' => String.eqb s' s
  | _ => false
  end.

(** Truthiness of an [os.getenv] result. *)
Definition env_truthy (o : option string) : bool :=
  match o with
  | Some s => negb (String.eqb s "")
  | None => false
  end.

(** [all([...])] over environment values. *)
Definition all_truthy (l : list (option string)) : bool := forallb env_truthy l.

Definition env_value (o : option string) : value :=
  match o with
  | Some s => JStr s
  | None => JNull
  end.

(** Substring test, as [needle in hay] on two [str]. *)
Fixpoint prefixb (p s : string) : bool :=
  match p, s with
  | EmptyString, _ => true
  | String a p', String b s' => Ascii.eqb a b && prefixb p' s'
  | String _ _, EmptyString => false
  end.

Fixpoint infixb (needle hay : string) : bool :=
  prefixb needle hay ||
  match hay with
  | EmptyString => false
  | String _ hay' => infixb needle hay'
  end.

Definition infix (needle hay : string) : Prop :=
  exists pre post, hay = pre ++ needle ++ post.

End Py.
Export Py.

(** ** Outcomes, responses, exceptions *)

(** What a call yields: a value, or a thrown error. *)
Inductive outcome (E A : Type) : Type :=
| Returned (a : A)
| Threw (e : E).
Arguments Returned {E A} a.
Arguments Threw {E A} e.

Definition bytes := list Byte.byte.

(** An [httpx.Response], as far as the handlers look at it.  [json] is the
    result of [response.json()]: the parsed body, or the message of the
    decoding error. *)
Record Response : Type := mkResponse {
  status_code : Z;
  text : string;
  content : bytes;
  json : outcome string value
}.

(** The exception classes the handlers tell apart, and those that can reach
    them; all derive from [Exception].  [NoCredentialsError] is a subclass of [BotoCoreError];
    [BotoCoreError] stands for its other subclasses; [OtherException] for any
    [Exception] not listed (botocore's [ClientError], httpx transport
    errors, ...). *)
Inductive exn : Type :=
| NoCredentialsError (msg : string)
| BotoCoreError (msg : string)
| HTTPStatusError (msg : string) (response : Response)
| HTTPException (status : Z) (detail : string)
| ValueError (msg : string)
| TypeError (msg : string)
| AttributeError (msg : string)
| KeyError (key : string)
| OtherException (msg : string).

(** What a boto3 call can raise. *)
Inductive s3_error : Type :=
| S3NoCredentials (msg : string)
| S3BotoCore (msg : string)
| S3ClientError (msg : string).

(** What an httpx request can raise before there is a response. *)
Inductive http_error : Type :=
| RequestFailed (msg : string).

Definition exn_of_s3 (e : s3_error) : exn :=
  match e with
  | S3NoCredentials m => NoCredentialsError m
  | S3BotoCore m => BotoCoreError m
  | S3ClientError m => OtherException m
  end.

Definition exn_of_http (e : http_error) : exn :=
  match e with
  | RequestFailed m => OtherException m
  end.

(** [str(HTTPException(status_code=s, detail=d))], which Starlette defines
    as [f"{status_code}: {detail}"]. *)
Definition str_HTTPException (s : Z) (d : string) : string :=
  NilZero.string_of_int (Z.to_int s) ++ ": " ++ d.

(** Behaviour of the interpreter and of the libraries that [main.py] relies
    on but does not define and whose wording varies. *)
Record Runtime : Type := mkRuntime {
  (** [repr(v)] *)
  repr : value -> string;
  (** message of the [TypeError] of an operation on a value *)
  type_error_message : string -> value -> string;
  (** message of the [AttributeError] of a missing attribute *)
  attribute_error_message : value -> string -> string;
  (** message [raise_for_status] gives its [HTTPStatusError] *)
  status_error_message : Response -> string;
  (** whether [raise_for_status] raises at a status code *)
  raises_for_status : Z -> bool;
  raises_for_status_2xx :
    forall s, 200 <= s < 300 -> raises_for_status s = false;
  raises_for_status_error :
    forall s, 400 <= s < 600 -> raises_for_status s = true
}.

Definition headers := list (string * option string).

(** ** Configuration, world and trace *)

(** The module-level values read with [os.getenv]. *)
Record Config : Type := mkConfig {
  DROMO_LICENSE_KEY : option string;
  DROMO_SCHEMA_ID : option string;
  AWS_ACCESS_KEY : option string;
  AWS_SECRET_KEY : option string;
  AWS_S3_BUCKET : option string
}.

Definition DROMO_API_BASE : string := "https://app.dromo.io/api/v1".

(** The external services.  Within one run of a handler no two calls agree
    on their arguments, so answers that depend on the arguments alone lose
    nothing. *)
Record World : Type := mkWorld {
  (** [s3_client.get_object(Bucket, Key)['Body'].read()] *)
  get_object : option string -> string -> outcome s3_error bytes;
  (** [s3_client.put_object(Bucket, Key, Body, ContentType)] *)
  put_object : option string -> string -> bytes -> string -> outcome s3_error unit;
  (** [client.post(url, json, headers)] *)
  post : string -> value -> headers -> outcome http_error Response;
  (** [client.put(url, content)] *)
  put : value -> bytes -> outcome http_error Response;
  (** [client.get(url, headers)], with [None] when no headers are given *)
  get : value -> option headers -> outcome http_error Response
}.

(** One external call with its outcome. *)
Inductive event : Type :=
| S3GetObject (Bucket : option string) (Key : string) (out : outcome s3_error bytes)
| S3PutObject (Bucket : option string) (Key : string) (Body : bytes)
    (ContentType : string) (out : outcome s3_error unit)
| HttpPost (url : string) (payload : value) (hs : headers)
    (out : outcome http_error Response)
| HttpPut (url : value) (body : bytes) (out : outcome http_error Response)
| HttpGet (url : value) (hs : option headers) (out : outcome http_error Response).

Definition trace := list event.

Definition is_s3_write (e : event) : bool :=
  match e with S3PutObject _ _ _ _ _ => true | _ => false end.

Definition is_http_call (e : event) : bool :=
  match e with
  | HttpPost _ _ _ _ | HttpPut _ _ _ | HttpGet _ _ _ => true
  | _ => false
  end.

Definition is_create_import (e : event) : bool :=
  match e with HttpPost _ _ _ _ => true | _ => false end.

Definition s3_writes (tr : trace) : trace := filter is_s3_write tr.

(** ** The monad of handlers *)

Definition result := outcome exn.

Definition M (A : Type) : Type := trace -> result A * trace.

Definition ret {A} (a : A) : M A := fun tr => (Returned a, tr).

Definition raise {A} (e : exn) : M A := fun tr => (Threw e, tr).

Definition bind {A B} (m : M A) (k : A -> M B) : M B :=
  fun tr =>
    match m tr with
    | (Returned a, tr') => k a tr'
    | (Threw e, tr') => (Threw e, tr')
    end.

(** [try: m  except ...: h e]; a handler that matches no clause re-raises. *)
Definition try_except {A} (m : M A) (h : exn -> M A) : M A :=
  fun tr =>
    match m tr with
    | (Returned a, tr') => (Returned a, tr')
    | (Threw e, tr') => h e tr'
    end.

Definition lift {A} (o : result A) : M A := fun tr => (o, tr).

Definition emit (e : event) : M unit := fun tr => (Returned tt, (tr ++ [e])%list).

Declare Scope py_scope.
Delimit Scope py_scope with py.
Notation "x <- m ;; k" := (bind m (fun x => k))
  (at level 61, m at next level, right associativity) : py_scope.
Notation "m ;;; k" := (bind m (fun _ => k))
  (at level 61, right associativity) : py_scope.
Local Open Scope py_scope.

(** An external call: ask the world, log the call with its answer, then
    return or raise. *)
Definition call {E A} (ev : outcome E A -> event) (inj : E -> exn)
    (o : outcome E A) : M A :=
  emit (ev o) ;;;
  match o with
  | Returned a => ret a
  | Threw e => raise (inj e)
  end.

(** ** Request and reply shapes

    FastAPI validates a request before it calls a handler: [import_file]
    gets a body with two strings, [webhook_handler] a JSON object. *)

Record S3FileImportRequest : Type := mkRequest {
  s3_key : string;
  filename : string
}.

(** The content of a reply: JSON, plain text, or none. *)
Inductive reply_content : Type :=
| JsonBody (v : value)
| TextBody (s : string)
| NoBody.

Coercion JsonBody : value >-> reply_content.

Record http_reply : Type := mkReply {
  reply_status : Z;
  reply_body : reply_content
}.

Definition error_reply (status : Z) (detail : string) : http_reply :=
  mkReply status (JDict [("detail", JStr detail)]).

(** What an exception that leaves the application is answered with. *)
Definition internal_server_error : http_reply :=
  mkReply 500 (TextBody "Internal Server Error").

(** FastAPI's [is_body_allowed_for_status_code]. *)
Definition body_allowed (status : Z) : bool :=
  negb ((status <? 200) || (status =? 204) || (status =? 205)
        || (status =? 304)).

(** What FastAPI sends back.  A returned [dict] is rendered with
    [json.dumps(..., allow_nan=False)] into a 200; when that raises, the
    exception leaves the application.  An [HTTPException] is answered with
    its status and [{"detail": ...}], or with no body at a status that
    allows none. *)
Definition serve (r : result value) : http_reply :=
  match r with
  | Returned body =>
      if renderable body then mkReply 200 body else internal_server_error
  | Threw (HTTPException s d) =>
      if body_allowed s then error_reply s d else mkReply s NoBody
  | Threw _ => internal_server_error
  end.

(** The candidate names of the upload target, in probing order. *)
Definition upload_url_keys : list string :=
  ["upload_url"; "upload"; "uploadUrl"; "file_upload_url"].

(** ** The handlers *)

Section Handlers.

Variable rt : Runtime.
Variable cfg : Config.
Variable w : World.

(** *** Operations of the interpreter *)

(** [str(v)], as an f-string formats [{v}]. *)
Definition py_str (v : value) : string :=
  match v with
  | JStr s => s
  | _ => repr rt v
  end.

(** [repr] of a list of strings, as in [f"{list(d.keys())}"]. *)
Definition repr_keys (ks : list string) : string :=
  "[" ++ String.concat ", " (map (fun k => repr rt (JStr k)) ks) ++ "]".

Definition str_exn (e : exn) : string :=
  match e with
  | NoCredentialsError m => m
  | BotoCoreError m => m
  | HTTPStatusError m _ => m
  | HTTPException s d => str_HTTPException s d
  | ValueError m => m
  | TypeError m => m
  | AttributeError m => m
  | KeyError k => repr rt (JStr k)
  | OtherException m => m
  end.

(** [item in container] for a string [item]. *)
Definition py_in (item : string) (container : value) : result bool :=
  match container with
  | JDict d => Returned (dict_mem d item)
  | JList l => Returned (existsb (fun x => eq_str x item) l)
  | JStr s => Returned (infixb item s)
  | _ => Threw (TypeError (type_error_message rt "in" container))
  end.

(** [v[k]] for a string [k]. *)
Definition py_getitem (v : value) (k : string) : result value :=
  match v with
  | JDict d =>
      match dict_get d k with
      | Some x => Returned x
      | None => Threw (KeyError k)
      end
  | _ => Threw (TypeError (type_error_message rt "getitem" v))
  end.

(** [v.get(k, default)] *)
Definition py_get (v : value) (k : string) (default : value) : result value :=
  match v with
  | JDict d => Returned (dict_get_or d k default)
  | _ => Threw (AttributeError (attribute_error_message rt v "get"))
  end.

(** [list(v.keys())] *)
Definition py_keys (v : value) : result (list string) :=
  match v with
  | JDict d => Returned (dict_keys d)
  | _ => Threw (AttributeError (attribute_error_message rt v "keys"))
  end.

(** *** Calls to the outside *)

Definition s3_get_object (Bucket : option string) (Key : string) : M bytes :=
  call (S3GetObject Bucket Key) exn_of_s3 (get_object w Bucket Key).

Definition s3_put_object (Bucket : option string) (Key : string)
    (Body : bytes) (ContentType : string) : M unit :=
  call (S3PutObject Bucket Key Body ContentType) exn_of_s3
    (put_object w Bucket Key Body ContentType).

Definition client_post (url : string) (payload : value) (hs : headers)
    : M Response :=
  call (HttpPost url payload hs) exn_of_http (post w url payload hs).

Definition client_put (url : value) (body : bytes) : M Response :=
  call (HttpPut url body) exn_of_http (put w url body).

Definition client_get (url : value) (hs : option headers) : M Response :=
  call (HttpGet url hs) exn_of_http (get w url hs).

Definition raise_for_status (r : Response) : M unit :=
  if raises_for_status rt (status_code r)
  then raise (HTTPStatusError (status_error_message rt r) r)
  else ret tt.

Definition response_json (r : Response) : M value :=
  match json r with
  | Returned v => ret v
  | Threw m => raise (ValueError m)
  end.

(** *** POST /import-file *)

(** The [for possible_key in [...]] loop; [upload_url] is what the variable
    holds when the loop is entered. *)
Fixpoint probe_upload_url (keys : list string) (import_data upload_url : value)
    : M value :=
  match keys with
  | [] => ret upload_url
  | possible_key :: rest =>
      present <- lift (py_in possible_key import_data) ;;
      if present
      then lift (py_getitem import_data possible_key)
      else probe_upload_url rest import_data upload_url
  end.

Definition import_file (request : S3FileImportRequest) : M value :=
  if negb (env_truthy (DROMO_LICENSE_KEY cfg)) then
    raise (HTTPException 500 "Dromo license key not configured")
  else if negb (all_truthy [AWS_ACCESS_KEY cfg; AWS_SECRET_KEY cfg;
                            AWS_S3_BUCKET cfg]) then
    raise (HTTPException 500 "AWS credentials or S3 bucket not configured")
  else
    try_except
      ((* Step 1: read file from S3 *)
       file_content <-
         try_except
           (s3_get_object (AWS_S3_BUCKET cfg) (s3_key request))
           (fun e =>
              match e with
              | NoCredentialsError _ =>
                  raise (HTTPException 500 "AWS credentials not found")
              | BotoCoreError m =>
                  raise (HTTPException 500 ("Error reading from S3: " ++ m))
              | _ => raise e
              end) ;;
       (* Step 2: create headless import *)
       let hs := [("X-Dromo-License-Key", DROMO_LICENSE_KEY cfg);
                  ("Content-Type", Some "application/json")] in
       let create_payload :=
         JDict [("schema_id", env_value (DROMO_SCHEMA_ID cfg));
                ("original_filename", JStr (filename request))] in
       response <-
         client_post (DROMO_API_BASE ++ "/headless/imports/") create_payload hs ;;
       raise_for_status response ;;;
       import_data <- response_json response ;;
       has_id <- lift (py_in "id" import_data) ;;
       if negb has_id then
         raise (ValueError ("Missing 'id' in Dromo response: "
                            ++ py_str import_data))
       else
         import_id <- lift (py_getitem import_data "id") ;;
         upload_url <- probe_upload_url upload_url_keys import_data JNull ;;
         if negb (truthy upload_url) then
           ks <- lift (py_keys import_data) ;;
           raise (ValueError
                    ("No upload URL found in Dromo response. Available keys: "
                     ++ repr_keys ks))
         else
           (* Step 3: upload file to Dromo *)
           upload_response <- client_put upload_url file_content ;;
           raise_for_status upload_response ;;;
           ret (JDict [("import_id", import_id);
                       ("status", JStr "PENDING");
                       ("message", JStr "Import started successfully")]))
      (fun e =>
         match e with
         | HTTPStatusError _ r =>
             raise (HTTPException (status_code r)
                      ("Dromo API error: " ++ text r))
         | _ =>
             raise (HTTPException 500
                      ("Failed to start import: " ++ str_exn e))
         end).

(** *** POST /webhook *)

Definition download_and_save_processed_data (import_id : value) : M string :=
  try_except
    (let hs := [("X-Dromo-License-Key", DROMO_LICENSE_KEY cfg)] in
     response <-
       client_get
         (JStr (DROMO_API_BASE ++ "/upload/" ++ py_str import_id ++ "/url/"))
         (Some hs) ;;
     raise_for_status response ;;;
     presigned_data <- response_json response ;;
     download_url <- lift (py_get presigned_data "presigned_url" JNull) ;;
     if negb (truthy download_url) then
       raise (ValueError ("No presigned_url in response: "
                          ++ py_str presigned_data))
     else
       download_response <- client_get download_url None ;;
       raise_for_status download_response ;;;
       let processed_data := content download_response in
       let output_key := "processed/" ++ py_str import_id ++ ".csv" in
       s3_put_object (AWS_S3_BUCKET cfg) output_key processed_data "text/csv" ;;;
       ret output_key)
    (fun e => raise e).

Definition webhook_handler (webhook_data : dict) : M value :=
  try_except
    (let data := dict_get_or webhook_data "data" (JDict []) in
     import_id <- lift (py_get data "id" JNull) ;;
     status <- lift (py_get data "status" JNull) ;;
     if negb (truthy import_id) then
       raise (HTTPException 400 "Missing import_id in webhook data.data.id")
     else
       (if eq_str status "SUCCESSFUL" then
          try_except
            (download_and_save_processed_data import_id ;;; ret tt)
            (fun _ => ret tt)
        else if eq_str status "FAILED" then
          lift (py_get data "errors" JNull) ;;; ret tt
        else ret tt) ;;;
       ret (JDict [("message", JStr "Webhook processed successfully");
                   ("import_id", import_id);
                   ("status", status)]))
    (fun e =>
       match e with
       | HTTPException _ _ => raise e
       | _ =>
           raise (HTTPException 500
                    ("Failed to process webhook: " ++ str_exn e))
       end).

(** *** The endpoints: one run from an empty trace, seen through FastAPI *)

Definition post_import_file (request : S3FileImportRequest)
    : http_reply * trace :=
  let (r, tr) := import_file request [] in (serve r, tr).

Definition post_webhook (webhook_data : dict) : http_reply * trace :=
  let (r, tr) := webhook_handler webhook_data [] in (serve r, tr).

End Handlers.

(** ** The other endpoints, and start-up *)

(** GET / *)
Definition root : M value := ret (JDict [("message", JStr "Hello World")]).

(** GET /health *)
Definition health_check : M value := ret (JDict [("status", JStr "healthy")]).

(** The warnings the module logs when it is loaded, in order.  Loading goes
    on whatever is missing. *)
Definition startup_warnings (cfg : Config) : list string :=
  ((if negb (env_truthy (DROMO_LICENSE_KEY cfg))
    then ["DROMO_LICENSE_KEY environment variable not set"]
    else [])
   ++ (if negb (all_truthy [AWS_ACCESS_KEY cfg; AWS_SECRET_KEY cfg;
                            AWS_S3_BUCKET cfg])
       then ["AWS credentials or S3 bucket not configured"]
       else []))%list.

(** ** The calls of the handlers, by name *)

(** The create-import request of [import_file]. *)
Definition create_url : string := DROMO_API_BASE ++ "/headless/imports/".

Definition create_payload (cfg : Config) (request : S3FileImportRequest)
    : value :=
  JDict [("schema_id", env_value (DROMO_SCHEMA_ID cfg));
         ("original_filename", JStr (filename request))].

Definition create_headers (cfg : Config) : headers :=
  [("X-Dromo-License-Key", DROMO_LICENSE_KEY cfg);
   ("Content-Type", Some "application/json")].

(** The pointer request and the object key of
    [download_and_save_processed_data]. *)
Definition pointer_url (rt : Runtime) (import_id : value) : value :=
  JStr (DROMO_API_BASE ++ "/upload/" ++ py_str rt import_id ++ "/url/").

Definition pointer_headers (cfg : Config) : headers :=
  [("X-Dromo-License-Key", DROMO_LICENSE_KEY cfg)].

Definition output_key (rt : Runtime) (import_id : value) : string :=
  "processed/" ++ py_str rt import_id ++ ".csv".

(** ** Vocabulary of the properties *)

(** A response with a 2xx status, and one with a 4xx or 5xx status. *)
Definition succeeded (r : Response) : Prop := 200 <= status_code r < 300.

Definition error_status (r : Response) : Prop := 400 <= status_code r < 600.

(** The two bodies the handlers return. *)
Definition import_started (import_id : value) : value :=
  JDict [("import_id", import_id);
         ("status", JStr "PENDING");
         ("message", JStr "Import started successfully")].

Definition acknowledgement (import_id status : value) : value :=
  JDict [("message", JStr "Webhook processed successfully");
         ("import_id", import_id);
         ("status", status)].

(** The detail of the failure raised when no upload target is found. *)
Definition no_upload_url_detail (rt : Runtime) (import_data : dict) : string :=
  "Failed to start import: "
  ++ "No upload URL found in Dromo response. Available keys: "
  ++ repr_keys rt (dict_keys import_data).



(** ** Sample runtime, configuration and worlds

    Concrete instances on which the model runs. *)

Module Sample.

(** Current httpx raises for every status outside 2xx.  [repr] is given for
    plain strings only (no quote or escape inside), which is all the samples
    use. *)
Definition type_name (v : value) : string :=
  match v with
  | JNull => "NoneType"
  | JBool _ => "bool"
  | JInt _ => "int"
  | JFloat _ => "float"
  | JStr _ => "str"
  | JList _ => "list"
  | JDict _ => "dict"
  end.

Definition runtime : Runtime :=
  {| repr := fun v =>
       match v with
       | JStr s => "'" ++ s ++ "'"
       | _ => "<object>"
       end;
     type_error_message := fun op v =>
       "'" ++ type_name v ++ "' object does not support " ++ op;
     attribute_error_message := fun v a =>
       "'" ++ type_name v ++ "' object has no attribute '" ++ a ++ "'";
     status_error_message := fun r =>
       "HTTP status " ++ NilZero.string_of_int (Z.to_int (status_code r));
     raises_for_status := fun s => negb ((200 <=? s) && (s <? 300));
     raises_for_status_2xx := ltac:(intros s Hs;
       apply negb_false_iff, andb_true_iff;
       split; [apply Z.leb_le | apply Z.ltb_lt]; lia);
     raises_for_status_error := ltac:(intros s Hs;
       apply negb_true_iff, andb_false_iff;
       right; apply Z.ltb_ge; lia) |}.

Definition config : Config :=
  {| DROMO_LICENSE_KEY := Some "lic-123";
     DROMO_SCHEMA_ID := Some "schema-9";
     AWS_ACCESS_KEY := Some "AKIA";
     AWS_SECRET_KEY := Some "secret";
     AWS_S3_BUCKET := Some "bucket" |}.

(** The same deployment without a license key. *)
Definition config_no_license : Config :=
  {| DROMO_LICENSE_KEY := None;
     DROMO_SCHEMA_ID := Some "schema-9";
     AWS_ACCESS_KEY := Some "AKIA";
     AWS_SECRET_KEY := Some "secret";
     AWS_S3_BUCKET := Some "bucket" |}.

Definition request : S3FileImportRequest :=
  {| s3_key := "uploads/a.csv"; filename := "a.csv" |}.

Definition csv : bytes := [Byte.x61; Byte.x2c; Byte.x62; Byte.x0a].

Definition ok_response (body : value) : Response :=
  {| status_code := 200; text := "ok"; content := csv; json := Returned body |}.

Definition error_response (s : Z) (body : string) : Response :=
  {| status_code := s; text := body; content := [];
     json := Threw "Expecting value" |}.

(** A world of constant answers: one per kind of call. *)
Definition world
    (s3_read : outcome s3_error bytes)
    (create upload : outcome http_error Response)
    (fetch : value -> option headers -> outcome http_error Response)
    (s3_write : outcome s3_error unit) : World :=
  {| get_object := fun _ _ => s3_read;
     put_object := fun _ _ _ _ => s3_write;
     post := fun _ _ _ => create;
     put := fun _ _ => upload;
     get := fetch |}.

(** The create-import answer: an id and an upload target. *)
Definition created : dict :=
  [("id", JStr "job123"); ("upload", JStr "https://up.example/put")].

(** Result handling: the pointer request carries headers, the download none. *)
Definition fetch_ok (url : value) (hs : option headers)
    : outcome http_error Response :=
  match hs with
  | Some _ =>
      Returned (ok_response (JDict [("presigned_url", JStr "https://dl.example/r")]))
  | None => Returned (ok_response JNull)
  end.

Definition happy : World :=
  world (Returned csv) (Returned (ok_response (JDict created)))
    (Returned (ok_response JNull)) fetch_ok (Returned tt).



(** The object store has no credentials / does not have the key. *)
Definition no_credentials : World :=
  world (Threw (S3NoCredentials "Unable to locate credentials"))
    (Returned (ok_response (JDict created)))
    (Returned (ok_response JNull)) fetch_ok (Returned tt).

Definition no_such_key : World :=
  world (Threw (S3ClientError "NoSuchKey: The specified key does not exist."))
    (Returned (ok_response (JDict created)))
    (Returned (ok_response JNull)) fetch_ok (Returned tt).

(** The import service rejects the create call. *)
Definition create_rejected : World :=
  world (Returned csv) (Returned (error_response 422 "schema not found"))
    (Returned (ok_response JNull)) fetch_ok (Returned tt).

(** A create answer without any upload target. *)
Definition created_no_target : dict :=
  [("id", JStr "job123"); ("state", JStr "AWAITING_UPLOAD")].

Definition no_target : World :=
  world (Returned csv) (Returned (ok_response (JDict created_no_target)))
    (Returned (ok_response JNull)) fetch_ok (Returned tt).

(** A create answer whose first candidate is empty and a later one usable. *)
Definition created_empty_first : dict :=
  [("id", JStr "job123");
   ("upload_url", JStr "");
   ("upload", JStr "https://up.example/put")].

Definition empty_first : World :=
  world (Returned csv) (Returned (ok_response (JDict created_empty_first)))
    (Returned (ok_response JNull)) fetch_ok (Returned tt).

(** A create answer without an id, and one that is a list, not an object. *)
Definition created_no_id : dict :=
  [("upload_url", JStr "https://up.example/put")].

Definition no_id : World :=
  world (Returned csv) (Returned (ok_response (JDict created_no_id)))
    (Returned (ok_response JNull)) fetch_ok (Returned tt).

Definition list_body : World :=
  world (Returned csv)
    (Returned (ok_response (JList [JStr "id"; JStr "upload_url"])))
    (Returned (ok_response JNull)) fetch_ok (Returned tt).

(** The import service cannot be reached. *)
Definition create_unreachable : World :=
  world (Returned csv) (Threw (RequestFailed "connection refused"))
    (Returned (ok_response JNull)) fetch_ok (Returned tt).

(** The pointer answer holds no pointer. *)
Definition fetch_no_pointer (url : value) (hs : option headers)
    : outcome http_error Response :=
  Returned (ok_response (JDict [("detail", JStr "not ready")])).

Definition no_pointer : World :=
  world (Returned csv) (Returned (ok_response (JDict created)))
    (Returned (ok_response JNull)) fetch_no_pointer (Returned tt).

(** A create answer whose id is a number too large for a float, and a
    create call answered 304. *)
Definition created_infinite_id : dict :=
  [("id", JFloat infinity); ("upload", JStr "https://up.example/put")].

Definition infinite_id : World :=
  world (Returned csv) (Returned (ok_response (JDict created_infinite_id)))
    (Returned (ok_response JNull)) fetch_ok (Returned tt).

Definition create_not_modified : World :=
  world (Returned csv) (Returned (error_response 304 ""))
    (Returned (ok_response JNull)) fetch_ok (Returned tt).

(** Webhook bodies. *)
Definition notification (import_id status : value) : dict :=
  [("data", JDict [("id", import_id); ("status", status)])].

End Sample.

(** * Properties *)

(** ** The monad *)

Section MonadLaws.

Context {A B C : Type}.

Lemma bind_ret (a : A) (k : A -> M B) : bind (ret a) k = k a.
Proof. reflexivity. Qed.

Lemma bind_raise (e : exn) (k : A -> M B) (tr : trace) :
  bind (raise e) k tr = (Threw e, tr).
Proof. reflexivity. Qed.

Lemma bind_assoc (m : M A) (k : A -> M B) (h : B -> M C) (tr : trace) :
  bind (bind m k) h tr = bind m (fun a => bind (k a) h) tr.
Proof.
  unfold bind. destruct (m tr) as [[a | e] tr']; reflexivity.
Qed.

Lemma try_except_ret (a : A) (h : exn -> M A) (tr : trace) :
  try_except (ret a) h tr = (Returned a, tr).
Proof. reflexivity. Qed.

Lemma try_except_raise (e : exn) (h : exn -> M A) (tr : trace) :
  try_except (raise e) h tr = h e tr.
Proof. reflexivity. Qed.

(** A [try] whose handler re-raises what it caught changes nothing. *)
Lemma try_except_reraise (m : M A) (tr : trace) :
  try_except m (fun e => raise e) tr = m tr.
Proof.
  unfold try_except, raise. destruct (m tr) as [[a | e] tr']; reflexivity.
Qed.

End MonadLaws.

(** An external call appends exactly its own event. *)
Lemma call_trace {E A} (ev : outcome E A -> event) (inj : E -> exn)
    (o : outcome E A) (tr : trace) :
  snd (call ev inj o tr) = (tr ++ [ev o])%list.
Proof. destruct o; reflexivity. Qed.

(** ** Strings and dictionaries *)

Lemma prefixb_append (p s : string) : prefixb p (p ++ s) = true.
Proof.
  induction p as [| a p IH]; simpl.
  - reflexivity.
  - rewrite Ascii.eqb_refl. exact IH.
Qed.

Lemma infixb_prefixb (needle hay : string) :
  prefixb needle hay = true -> infixb needle hay = true.
Proof.
  intros H. destruct hay; simpl; rewrite H; reflexivity.
Qed.

Lemma infixb_complete (needle hay : string) :
  infix needle hay -> infixb needle hay = true.
Proof.
  intros (pre & post & ->).
  induction pre as [| a pre IH].
  - change ("" ++ needle ++ post) with (needle ++ post).
    apply infixb_prefixb, prefixb_append.
  - simpl. rewrite IH. apply orb_true_r.
Qed.

Lemma append_nil_r (s : string) : s ++ "" = s.
Proof.
  induction s as [| a s IH]; simpl; [reflexivity | now rewrite IH].
Qed.

Lemma append_assoc (a b c : string) : (a ++ b) ++ c = a ++ b ++ c.
Proof.
  induction a as [| x a IH]; simpl; [reflexivity | now rewrite IH].
Qed.

Lemma infix_append_r (pre s : string) : infix s (pre ++ s).
Proof.
  exists pre, "". now rewrite append_nil_r.
Qed.

Lemma infix_trans (a b c : string) : infix a b -> infix b c -> infix a c.
Proof.
  intros (p1 & q1 & ->) (p2 & q2 & ->).
  exists (p2 ++ p1), (q1 ++ q2).
  now rewrite !append_assoc.
Qed.

(** The keys listed for a dictionary are exactly those it holds. *)
Lemma dict_keys_spec (d : dict) (k : string) :
  In k (dict_keys d) <-> dict_mem d k = true.
Proof.
  unfold dict_mem, dict_keys.
  induction d as [| [k' v] d IH]; simpl.
  - split; [contradiction | discriminate].
  - destruct (String.eqb k' k) eqn:E.
    + apply String.eqb_eq in E. split; auto.
    + apply String.eqb_neq in E. rewrite <- IH. split; [intros [H | H] | ]; auto.
      contradiction.
Qed.

(** ** Rendering of replies *)

Lemma renderable_import_started (import_id : value) :
  renderable (import_started import_id) = renderable import_id.
Proof. unfold import_started. simpl. apply andb_true_r. Qed.

Lemma renderable_acknowledgement (import_id status : value) :
  renderable (acknowledgement import_id status)
  = renderable import_id && renderable status.
Proof.
  unfold acknowledgement. simpl. now rewrite andb_true_r.
Qed.

Lemma body_allowed_error (s : Z) : 400 <= s < 600 -> body_allowed s = true.
Proof.
  intros H. unfold body_allowed.
  replace (s <? 200) with false by (symmetry; apply Z.ltb_ge; lia).
  replace (s =? 204) with false by (symmetry; apply Z.eqb_neq; lia).
  replace (s =? 205) with false by (symmetry; apply Z.eqb_neq; lia).
  replace (s =? 304) with false by (symmetry; apply Z.eqb_neq; lia).
  reflexivity.
Qed.

(** ** Case analysis of a run *)

(** Unfold the handlers down to the answers of the world. *)
Ltac unfold_run :=
  cbv beta iota zeta delta
    [post_import_file post_webhook import_file webhook_handler
     download_and_save_processed_data s3_get_object s3_put_object
     client_post client_put client_get raise_for_status response_json
     probe_upload_url upload_url_keys py_in py_getitem py_get py_keys dict_get_or
     call emit try_except bind lift ret raise app fst snd negb
     exn_of_s3 exn_of_http serve];
  change (body_allowed 400) with true;
  change (body_allowed 500) with true;
  cbv beta iota.

(** Split on the innermost value a run still waits for. *)
Ltac case_head :=
  match goal with
  | |- context [match ?x with _ => _ end] =>
      lazymatch x with
      | context [match _ with _ => _ end] => fail
      | _ => first [is_var x; destruct x
                   | let E := fresh "E" in destruct x eqn:E]
      end
  end.

Ltac split_run := unfold_run; repeat (case_head; unfold_run).

(** Replace the names of a run's reply and trace by the run itself. *)
Ltac name_run H :=
  match type of H with
  | ?run = (?reply, ?tr) =>
      let Hr := fresh in
      let Ht := fresh in
      assert (Hr : reply = fst run) by (rewrite H; reflexivity);
      assert (Ht : tr = snd run) by (rewrite H; reflexivity);
      clear H; subst reply tr
  end.

Ltac revert_runs :=
  repeat match goal with
  | H : context [post_import_file _ _ _ _] |- _ => revert H
  | H : context [post_webhook _ _ _ _] |- _ => revert H
  end.

(** Read facts [In e tr] against a trace that is now explicit. *)
Ltac clean_events :=
  repeat match goal with
  | H : False |- _ => contradiction
  | H : _ \/ _ |- _ => destruct H
  | H : exists _, _ |- _ => destruct H
  | H : @eq event _ _ |- _ => first [discriminate H | injection H as ?; subst]
  end.

Ltac status_clash rt :=
  match goal with
  | E : raises_for_status rt (status_code ?r) = true, H : succeeded ?r |- _ =>
      rewrite (raises_for_status_2xx rt _ H) in E; discriminate E
  | E : raises_for_status rt (status_code ?r) = false, H : error_status ?r |- _ =>
      rewrite (raises_for_status_error rt _ H) in E; discriminate E
  | E : body_allowed (status_code ?r) = false, H : error_status ?r |- _ =>
      rewrite (body_allowed_error _ H) in E; discriminate E
  end.

(** Whether the body of a run's reply can be rendered. *)
Ltac render_cases :=
  cbn [renderable forallb andb] in *;
  rewrite ?andb_true_r in *;
  repeat match goal with
  | H : renderable ?v = true, E : context [renderable ?v] |- _ =>
      rewrite H in E
  end;
  cbn [andb] in *.

Ltac by_cases rt H :=
  name_run H; revert_runs; split_run; cbn [In]; intros; clean_events;
  try status_clash rt.

(** Facts about the probed keys, read against the cases of a run. *)
Ltac resolve_find H :=
  cbv beta iota delta [find upload_url_keys] in H;
  repeat match goal with
  | E : dict_mem _ _ = _ |- _ => rewrite E in H
  end;
  try discriminate H; try (injection H as H; subst).

Ltac mem_clash :=
  match goal with
  | E : dict_mem ?d ?k = true, E' : dict_get ?d ?k = None |- _ =>
      unfold dict_mem in E; rewrite E' in E; discriminate E
  | E : dict_mem ?d ?k = false, E' : dict_get ?d ?k = Some _ |- _ =>
      unfold dict_mem in E; rewrite E' in E; discriminate E
  end.

(** Identify the parsed body a run branched on with the one assumed. *)
Ltac same_json H :=
  rewrite H in *;
  repeat match goal with
  | E : @Returned string value _ = Returned _ |- _ =>
      first [discriminate E | injection E as E; subst]
  | E : @Threw string value _ = Returned _ |- _ => discriminate E
  | E : JDict _ = JDict _ |- _ => injection E as E; subst
  end.

(** ** Sample runs *)

Example happy_import_trace :
  map is_http_call
    (snd (post_import_file Sample.runtime Sample.config Sample.happy
            Sample.request))
  = [false; true; true].
Proof. reflexivity. Qed.

Example missing_id_webhook :
  post_webhook Sample.runtime Sample.config Sample.happy
    [("data", JDict [("status", JStr "SUCCESSFUL")])]
  = (error_reply 400 "Missing import_id in webhook data.data.id", []).
Proof. reflexivity. Qed.

Example failed_webhook_only_acknowledges :
  post_webhook Sample.runtime Sample.config Sample.happy
    (Sample.notification (JStr "job123") (JStr "FAILED"))
  = (mkReply 200 (acknowledgement (JStr "job123") (JStr "FAILED")), []).
Proof. reflexivity. Qed.

(** A body that holds a number which is not finite cannot be rendered: the
    handler returns, and the reply is a 500 all the same. *)
Example infinite_id_import :
  fst (import_file Sample.runtime Sample.config Sample.infinite_id
         Sample.request [])
  = Returned (import_started (JFloat infinity))
  /\ fst (post_import_file Sample.runtime Sample.config Sample.infinite_id
            Sample.request)
     = internal_server_error.
Proof. split; reflexivity. Qed.

Example infinite_id_webhook :
  post_webhook Sample.runtime Sample.config Sample.happy
    (Sample.notification (JFloat infinity) (JStr "PENDING"))
  = (internal_server_error, []).
Proof. reflexivity. Qed.

(** A mirrored status that allows no body is answered without one. *)
Example not_modified_import :
  fst (post_import_file Sample.runtime Sample.config
         Sample.create_not_modified Sample.request)
  = mkReply 304 NoBody.
Proof. reflexivity. Qed.

(** ** POST /import-file *)

Section ImportFile.

Variable rt : Runtime.
Variable cfg : Config.
Variable w : World.

(** The handler returns a body or raises an [HTTPException]: [serve] never
    falls back to its last case. *)
Lemma import_file_raises_http_exception
    (request : S3FileImportRequest) :
  match fst (import_file rt cfg w request []) with
  | Returned _ | Threw (HTTPException _ _) => True
  | Threw _ => False
  end.
Proof. split_run; exact I. Qed.

(** C8. When the license key, the access key, the secret key or the bucket
    name is unset or empty, the request fails with HTTP 500 and the run makes
    no external call at all: its trace is empty. *)
Theorem import_file_unconfigured (request : S3FileImportRequest) :
  env_truthy (DROMO_LICENSE_KEY cfg) = false
  \/ env_truthy (AWS_ACCESS_KEY cfg) = false
  \/ env_truthy (AWS_SECRET_KEY cfg) = false
  \/ env_truthy (AWS_S3_BUCKET cfg) = false ->
  exists detail,
    post_import_file rt cfg w request = (error_reply 500 detail, []).
Proof.
  intros H. unfold post_import_file, import_file, all_truthy, forallb.
  destruct (env_truthy (DROMO_LICENSE_KEY cfg)); cbn [negb].
  - destruct H as [H | [H | [H | H]]]; try discriminate H; rewrite H;
      rewrite ?andb_false_r; cbn [negb andb];
      eexists; reflexivity.
  - eexists; reflexivity.
Qed.


(** C5. In a run where the create response is a 2xx whose body holds an id:
    the upload target is the value under the first candidate key, in probing
    order, that the body holds; no upload goes anywhere else, and when that
    value is truthy the file that was read is uploaded to it.  When the body
    holds none of the candidate keys, the reply is a 500 whose detail lists
    the keys of the body, which are exactly the keys it holds. *)
Theorem import_file_probes_upload_target
    (request : S3FileImportRequest) (reply : http_reply) (tr : trace) :
  post_import_file rt cfg w request = (reply, tr) ->
  forall url payload hs response import_data,
    In (HttpPost url payload hs (Returned response)) tr ->
    succeeded response ->
    json response = Returned (JDict import_data) ->
    dict_mem import_data "id" = true ->
  (forall k v,
      find (dict_mem import_data) upload_url_keys = Some k ->
      dict_get import_data k = Some v ->
      (forall target body out, In (HttpPut target body out) tr -> target = v)
      /\ (truthy v = true ->
          exists Bucket Key file_content out,
            In (S3GetObject Bucket Key (Returned file_content)) tr
            /\ In (HttpPut v file_content out) tr))
  /\ (find (dict_mem import_data) upload_url_keys = None ->
      reply = error_reply 500 (no_upload_url_detail rt import_data))
  /\ (forall k, In k (dict_keys import_data) <-> dict_mem import_data k = true).
Proof.
  intros Hrun url payload hs response d Hpost Hst Hjson Hid.
  name_run Hrun.
  split; [intros k v Hfind Hget
         | split; [intros Hfind | intros k; apply dict_keys_spec]].
  - revert_runs; split_run; cbn [In]; intros; clean_events;
      try status_clash rt.
    all: try congruence; same_json Hjson; try congruence.
    all: resolve_find Hfind; try mem_clash.
    all: (split; [intros target body out H; clean_events; congruence
                 | intros Hv; try congruence]).
    all: do 4 eexists; split; [left; reflexivity | ].
    all: replace v with v1 by congruence; cbn [In]; auto.
  - revert_runs; split_run; cbn [In]; intros; clean_events;
      try status_clash rt.
    all: try congruence; same_json Hjson; try congruence.
    all: resolve_find Hfind; try mem_clash; try discriminate.
    reflexivity.
Qed.

(** C10. In a run where the create response is a 2xx whose body holds an
    id, if the first candidate key the body holds has a falsy value, the
    reply is the 500 of the missing upload URL and nothing is uploaded,
    whatever the later candidate keys hold. *)
Theorem import_file_falsy_first_target
    (request : S3FileImportRequest) (reply : http_reply) (tr : trace) :
  post_import_file rt cfg w request = (reply, tr) ->
  forall url payload hs response import_data k v,
    In (HttpPost url payload hs (Returned response)) tr ->
    succeeded response ->
    json response = Returned (JDict import_data) ->
    dict_mem import_data "id" = true ->
    find (dict_mem import_data) upload_url_keys = Some k ->
    dict_get import_data k = Some v ->
    truthy v = false ->
  reply = error_reply 500 (no_upload_url_detail rt import_data)
  /\ forall target body out, ~ In (HttpPut target body out) tr.
Proof.
  intros Hrun url payload hs response d k v Hpost Hst Hjson Hid Hfind Hget Hv.
  by_cases rt Hrun.
  all: try congruence; same_json Hjson; try congruence.
  all: resolve_find Hfind; try mem_clash; try congruence.
  all: split; [reflexivity | intros target body out H; clean_events].
Qed.

(** C6. In a run where the object-store read fails, the reply is a 500
    whose detail contains the reason of the failure, and no create-import
    call is made.  The reason is the message of the failure, for a
    [ClientError] (a key that does not exist) as for a [BotoCoreError]; for
    [NoCredentialsError] the handler words it itself, as
    "AWS credentials not found".  In the last two cases the detail wraps the
    string form of the [HTTPException] raised by the inner handler. *)
Theorem import_file_read_failure
    (request : S3FileImportRequest) (reply : http_reply) (tr : trace) :
  post_import_file rt cfg w request = (reply, tr) ->
  forall Bucket Key e,
    In (S3GetObject Bucket Key (Threw e)) tr ->
  filter is_create_import tr = []
  /\ exists detail,
       reply = error_reply 500 detail
       /\ match e with
          | S3NoCredentials _ =>
              detail = "Failed to start import: 500: AWS credentials not found"
              /\ infix "AWS credentials not found" detail
          | S3BotoCore m =>
              detail = "Failed to start import: 500: Error reading from S3: "
                       ++ m
              /\ infix m detail
          | S3ClientError m =>
              detail = "Failed to start import: " ++ m /\ infix m detail
          end.
Proof.
  intros Hrun Bucket Key e Hread.
  by_cases rt Hrun.
  all: (split; [reflexivity | eexists; split; [reflexivity | ]]).
  - split; [reflexivity | ].
    exact (infix_append_r "Failed to start import: 500: "
             "AWS credentials not found").
  - split; [reflexivity | ].
    match goal with
    | |- infix ?m _ =>
        exact (infix_append_r
                 "Failed to start import: 500: Error reading from S3: " m)
    end.
  - split; [reflexivity | ].
    match goal with
    | |- infix ?m _ => exact (infix_append_r "Failed to start import: " m)
    end.
Qed.

(** C7. In a run where the create call or the upload comes back with a 4xx
    or 5xx response, the reply has the status code of that response and the
    detail "Dromo API error: " followed by its body text. *)
Theorem import_file_mirrors_upstream_error
    (request : S3FileImportRequest) (reply : http_reply) (tr : trace) :
  post_import_file rt cfg w request = (reply, tr) ->
  forall response,
    (exists url payload hs, In (HttpPost url payload hs (Returned response)) tr)
    \/ (exists target body, In (HttpPut target body (Returned response)) tr) ->
    error_status response ->
  reply = error_reply (status_code response)
            ("Dromo API error: " ++ text response).
Proof.
  intros Hrun response Hcall Herr.
  by_cases rt Hrun; reflexivity.
Qed.

End ImportFile.

(** *** Instances on the sample worlds *)

Lemma import_file_unconfigured_witness :
  exists detail,
    post_import_file Sample.runtime Sample.config_no_license Sample.happy
      Sample.request = (error_reply 500 detail, []).
Proof.
  apply (import_file_unconfigured Sample.runtime Sample.config_no_license
           Sample.happy Sample.request).
  left. reflexivity.
Defined.


Lemma import_file_probes_upload_target_witness :
  exists Bucket Key file_content out,
    In (S3GetObject Bucket Key (Returned file_content))
      (snd (post_import_file Sample.runtime Sample.config Sample.happy
              Sample.request))
    /\ In (HttpPut (JStr "https://up.example/put") file_content out)
         (snd (post_import_file Sample.runtime Sample.config Sample.happy
                 Sample.request)).
Proof.
  assert (Hpost :
    In (HttpPost (DROMO_API_BASE ++ "/headless/imports/")
          (JDict [("schema_id", JStr "schema-9");
                  ("original_filename", JStr "a.csv")])
          [("X-Dromo-License-Key", Some "lic-123");
           ("Content-Type", Some "application/json")]
          (Returned (Sample.ok_response (JDict Sample.created))))
       (snd (post_import_file Sample.runtime Sample.config Sample.happy
               Sample.request)))
    by (right; left; reflexivity).
  assert (Hst : succeeded (Sample.ok_response (JDict Sample.created)))
    by (unfold succeeded; simpl; lia).
  exact (proj2
           (proj1
              (import_file_probes_upload_target Sample.runtime Sample.config
                 Sample.happy Sample.request _ _ eq_refl _ _ _ _
                 Sample.created Hpost Hst eq_refl eq_refl)
              "upload" (JStr "https://up.example/put") eq_refl eq_refl)
           eq_refl).
Defined.

Lemma import_file_falsy_first_target_witness :
  (dict_get Sample.created_empty_first "upload"
   = Some (JStr "https://up.example/put")
   /\ truthy (JStr "https://up.example/put") = true)
  /\ fst (post_import_file Sample.runtime Sample.config Sample.empty_first
            Sample.request)
     = error_reply 500
         ("Failed to start import: No upload URL found in Dromo response. "
          ++ "Available keys: ['id', 'upload_url', 'upload']")
  /\ forall target body out,
       ~ In (HttpPut target body out)
           (snd (post_import_file Sample.runtime Sample.config
                   Sample.empty_first Sample.request)).
Proof.
  split; [split; reflexivity | ].
  assert (Hpost :
    In (HttpPost (DROMO_API_BASE ++ "/headless/imports/")
          (JDict [("schema_id", JStr "schema-9");
                  ("original_filename", JStr "a.csv")])
          [("X-Dromo-License-Key", Some "lic-123");
           ("Content-Type", Some "application/json")]
          (Returned (Sample.ok_response (JDict Sample.created_empty_first))))
       (snd (post_import_file Sample.runtime Sample.config Sample.empty_first
               Sample.request)))
    by (right; left; reflexivity).
  assert (Hst : succeeded (Sample.ok_response (JDict Sample.created_empty_first)))
    by (unfold succeeded; simpl; lia).
  exact (import_file_falsy_first_target Sample.runtime Sample.config
           Sample.empty_first Sample.request _ _ eq_refl _ _ _ _
           Sample.created_empty_first "upload_url" (JStr "")
           Hpost Hst eq_refl eq_refl eq_refl eq_refl eq_refl).
Defined.

(** With no credentials the detail words the reason as the handler does;
    the text botocore gave is not in it. *)
Lemma import_file_read_failure_drops_reason :
  post_import_file Sample.runtime Sample.config Sample.no_credentials
    Sample.request
  = (error_reply 500 "Failed to start import: 500: AWS credentials not found",
     [S3GetObject (Some "bucket") "uploads/a.csv"
        (Threw (S3NoCredentials "Unable to locate credentials"))])
  /\ ~ infix "Unable to locate credentials"
         "Failed to start import: 500: AWS credentials not found".
Proof.
  split; [reflexivity | ].
  intros H. apply infixb_complete in H. discriminate H.
Qed.

Lemma import_file_read_failure_witness :
  filter is_create_import
    (snd (post_import_file Sample.runtime Sample.config Sample.no_such_key
            Sample.request)) = []
  /\ exists detail,
       fst (post_import_file Sample.runtime Sample.config Sample.no_such_key
              Sample.request) = error_reply 500 detail
       /\ detail = "Failed to start import: "
                   ++ "NoSuchKey: The specified key does not exist."
       /\ infix "NoSuchKey: The specified key does not exist." detail.
Proof.
  apply (import_file_read_failure Sample.runtime Sample.config
           Sample.no_such_key Sample.request _ _ eq_refl
           (Some "bucket") "uploads/a.csv"
           (S3ClientError "NoSuchKey: The specified key does not exist.")).
  left. reflexivity.
Defined.

Lemma import_file_mirrors_upstream_error_witness :
  fst (post_import_file Sample.runtime Sample.config Sample.create_rejected
         Sample.request)
  = error_reply 422 "Dromo API error: schema not found".
Proof.
  apply (import_file_mirrors_upstream_error Sample.runtime Sample.config
           Sample.create_rejected Sample.request _ _ eq_refl
           (Sample.error_response 422 "schema not found")).
  - left. do 3 eexists. right. left. reflexivity.
  - unfold error_status. simpl. lia.
Defined.

(** ** POST /webhook *)

Section Webhook.

Variable rt : Runtime.
Variable cfg : Config.
Variable w : World.

Lemma webhook_handler_raises_http_exception (webhook_data : dict) :
  match fst (webhook_handler rt cfg w webhook_data []) with
  | Returned _ | Threw (HTTPException _ _) => True
  | Threw _ => False
  end.
Proof. split_run; exact I. Qed.




(** C2. For a body [{"data": {"id": j, "status": "SUCCESSFUL"}}]: in a run
    where the pointer request and the download both come back with a 2xx
    response, there is exactly one object-store write, to the key
    "processed/" ++ j ++ ".csv", with content type "text/csv" and the
    downloaded bytes as body, and the reply is the 200 acknowledgement with
    id [j] and status "SUCCESSFUL". *)
Theorem webhook_successful_stores_result
    (webhook_data : dict) (reply : http_reply) (tr : trace) :
  post_webhook rt cfg w webhook_data = (reply, tr) ->
  forall data j,
    dict_get webhook_data "data" = Some (JDict data) ->
    dict_get data "id" = Some (JStr j) ->
    dict_get data "status" = Some (JStr "SUCCESSFUL") ->
  forall pointer_url hs pointer_response download_url download_response,
    In (HttpGet pointer_url (Some hs) (Returned pointer_response)) tr ->
    succeeded pointer_response ->
    In (HttpGet download_url None (Returned download_response)) tr ->
    succeeded download_response ->
  (exists out,
      s3_writes tr
      = [S3PutObject (AWS_S3_BUCKET cfg) ("processed/" ++ j ++ ".csv")
           (content download_response) "text/csv" out])
  /\ reply = mkReply 200 (acknowledgement (JStr j) (JStr "SUCCESSFUL")).
Proof.
  intros Hrun data j Hdata Hid Hstatus pointer_url hs pointer_response
    download_url download_response Hpointer Hpok Hdownload Hdok.
  name_run Hrun. revert Hpointer Hdownload.
  unfold_run. rewrite Hdata. unfold_run. rewrite Hid, Hstatus.
  change (eq_str (JStr "SUCCESSFUL") "SUCCESSFUL") with true.
  split_run; cbn [In]; intros; clean_events; try status_clash rt.
  all: render_cases; try discriminate.
  all: split; [eexists; reflexivity | reflexivity].
Qed.

End Webhook.

(** *** Instances on the sample worlds *)






Lemma webhook_successful_stores_result_witness :
  (exists out,
      s3_writes
        (snd (post_webhook Sample.runtime Sample.config Sample.happy
                (Sample.notification (JStr "job123") (JStr "SUCCESSFUL"))))
      = [S3PutObject (Some "bucket") "processed/job123.csv" Sample.csv
           "text/csv" out])
  /\ fst (post_webhook Sample.runtime Sample.config Sample.happy
            (Sample.notification (JStr "job123") (JStr "SUCCESSFUL")))
     = mkReply 200 (acknowledgement (JStr "job123") (JStr "SUCCESSFUL")).
Proof.
  apply (webhook_successful_stores_result Sample.runtime Sample.config
           Sample.happy
           (Sample.notification (JStr "job123") (JStr "SUCCESSFUL"))
           _ _ eq_refl
           [("id", JStr "job123"); ("status", JStr "SUCCESSFUL")] "job123"
           eq_refl eq_refl eq_refl
           (JStr "https://app.dromo.io/api/v1/upload/job123/url/")
           [("X-Dromo-License-Key", Some "lic-123")]
           (Sample.ok_response
              (JDict [("presigned_url", JStr "https://dl.example/r")]))
           (JStr "https://dl.example/r")
           (Sample.ok_response JNull)).
  - left. reflexivity.
  - unfold succeeded. simpl. lia.
  - right. left. reflexivity.
  - unfold succeeded. simpl. lia.
Defined.

(** * Further properties of the handlers *)

Section ImportFileCalls.

Variable rt : Runtime.
Variable cfg : Config.
Variable w : World.

(** X1. The calls of a run, in order: at most one read of the requested key
    in the configured bucket, one create request, one upload whose body is
    the bytes that were read.  Nothing is written to the object store and
    nothing is fetched. *)
Theorem import_file_calls (request : S3FileImportRequest) :
  snd (post_import_file rt cfg w request) = []
  \/ (exists e,
        snd (post_import_file rt cfg w request)
        = [S3GetObject (AWS_S3_BUCKET cfg) (s3_key request) (Threw e)])
  \/ (exists file_content out,
        snd (post_import_file rt cfg w request)
        = [S3GetObject (AWS_S3_BUCKET cfg) (s3_key request)
             (Returned file_content);
           HttpPost create_url (create_payload cfg request)
             (create_headers cfg) out])
  \/ (exists file_content response target out,
        snd (post_import_file rt cfg w request)
        = [S3GetObject (AWS_S3_BUCKET cfg) (s3_key request)
             (Returned file_content);
           HttpPost create_url (create_payload cfg request)
             (create_headers cfg) (Returned response);
           HttpPut target file_content out]).
Proof.
  split_run;
    first [ left; reflexivity
          | right; left; eexists; reflexivity
          | right; right; left; do 2 eexists; reflexivity
          | right; right; right; do 4 eexists; reflexivity ].
Qed.


(** X3. The status of a reply is 200, 500, or the status of a response of
    the import service that [raise_for_status] rejected. *)
Theorem import_file_reply_status (request : S3FileImportRequest) :
  reply_status (fst (post_import_file rt cfg w request)) = 200
  \/ reply_status (fst (post_import_file rt cfg w request)) = 500
  \/ exists response,
       ((exists url payload hs,
            In (HttpPost url payload hs (Returned response))
              (snd (post_import_file rt cfg w request)))
        \/ (exists target body,
               In (HttpPut target body (Returned response))
                 (snd (post_import_file rt cfg w request))))
       /\ raises_for_status rt (status_code response) = true
       /\ reply_status (fst (post_import_file rt cfg w request))
          = status_code response.
Proof.
  split_run; cbn [reply_status error_reply In];
    first [ left; reflexivity
          | right; left; reflexivity
          | right; right;
            match goal with
            | E : raises_for_status rt (status_code ?r) = true |- _ =>
                exists r; split; [ | split; [exact E | reflexivity]]
            end;
            first [ left; do 3 eexists; right; left; reflexivity
                  | right; do 2 eexists; right; right; left; reflexivity ] ].
Qed.

End ImportFileCalls.

Section ImportFileFailures.

Variable rt : Runtime.
Variable cfg : Config.
Variable w : World.

(** X4. A create response that is accepted and whose body is an object
    without the key "id" ends the request with a 500 that shows the whole
    body; nothing is uploaded. *)
Theorem import_file_missing_id
    (request : S3FileImportRequest) (reply : http_reply) (tr : trace) :
  post_import_file rt cfg w request = (reply, tr) ->
  forall url payload hs response import_data,
    In (HttpPost url payload hs (Returned response)) tr ->
    succeeded response ->
    json response = Returned (JDict import_data) ->
    dict_mem import_data "id" = false ->
  reply = error_reply 500
            ("Failed to start import: Missing 'id' in Dromo response: "
             ++ py_str rt (JDict import_data))
  /\ forall target body out, ~ In (HttpPut target body out) tr.
Proof.
  intros Hrun url payload hs response d Hpost Hst Hjson Hid.
  by_cases rt Hrun.
  all: try congruence; same_json Hjson; try congruence.
  all: split; [reflexivity | intros target body out H; clean_events].
Qed.

(** X5. A create response that is accepted but whose body is not a JSON
    object (not JSON at all, or a list, a string, a number, ...) ends the
    request with a 500; nothing is uploaded. *)
Theorem import_file_body_not_an_object
    (request : S3FileImportRequest) (reply : http_reply) (tr : trace) :
  post_import_file rt cfg w request = (reply, tr) ->
  forall url payload hs response,
    In (HttpPost url payload hs (Returned response)) tr ->
    succeeded response ->
    (forall d, json response <> Returned (JDict d)) ->
  reply_status reply = 500
  /\ forall target body out, ~ In (HttpPut target body out) tr.
Proof.
  intros Hrun url payload hs response Hpost Hst Hjson.
  by_cases rt Hrun.
  all: try (exfalso; eapply Hjson; eassumption).
  all: split; [reflexivity | intros target body out H; clean_events].
Qed.

(** X6. A create request or an upload that raises before any response is
    there (the service cannot be reached) ends the request with a 500 whose
    detail is "Failed to start import: " and the message of the failure. *)
Theorem import_file_transport_failure
    (request : S3FileImportRequest) (reply : http_reply) (tr : trace) :
  post_import_file rt cfg w request = (reply, tr) ->
  forall m,
    (exists url payload hs,
        In (HttpPost url payload hs (Threw (RequestFailed m))) tr)
    \/ (exists target body,
           In (HttpPut target body (Threw (RequestFailed m))) tr) ->
  reply = error_reply 500 ("Failed to start import: " ++ m).
Proof.
  intros Hrun m Hcall.
  by_cases rt Hrun; reflexivity.
Qed.

(** X7. Start-up and the handler agree on the configuration: the module
    logs no warning when it is loaded exactly when a request gets past the
    configuration checks, that is, when its run makes a call. *)
Theorem startup_warnings_match_checks (request : S3FileImportRequest) :
  startup_warnings cfg = []
  <-> snd (post_import_file rt cfg w request) <> [].
Proof.
  unfold startup_warnings.
  split_run; cbn [app]; split; intros H;
    first [discriminate H | reflexivity | congruence | now elim H].
Qed.

End ImportFileFailures.

Section WebhookCalls.

Variable rt : Runtime.
Variable cfg : Config.
Variable w : World.


(** X9. The webhook makes a call exactly when the body's [data] is an
    object with a truthy id and the status "SUCCESSFUL". *)
Theorem webhook_calls_iff_successful (webhook_data : dict) :
  snd (post_webhook rt cfg w webhook_data) <> []
  <-> exists data,
        dict_get_or webhook_data "data" (JDict []) = JDict data
        /\ truthy (dict_get_or data "id" JNull) = true
        /\ eq_str (dict_get_or data "status" JNull) "SUCCESSFUL" = true.
Proof.
  split_run; cbn [app]; split; intros H.
  all: try (now elim H).
  all: try congruence.
  all: try (eexists; split; [reflexivity | ];
            repeat match goal with
                   | E : dict_get _ _ = _ |- _ => rewrite E
                   end;
            split; assumption).
  all: destruct H as (data & Hd & Hi & Hs); try discriminate Hd.
  all: injection Hd as <-.
  all: repeat match goal with
              | E : dict_get _ _ = _ |- _ => rewrite E in *
              end.
  all: cbn [truthy eq_str] in *; congruence.
Qed.

End WebhookCalls.

(** Cancellation for string concatenation. *)
Lemma length_append (a b : string) :
  String.length (a ++ b) = (String.length a + String.length b)%nat.
Proof.
  induction a as [| c a IH]; simpl; [reflexivity | now rewrite IH].
Qed.

Lemma append_cancel_l (p a b : string) : p ++ a = p ++ b -> a = b.
Proof.
  induction p as [| c p IH]; simpl; intros H; [exact H | ].
  injection H as H. exact (IH H).
Qed.

Lemma append_cancel_r (t a b : string) : a ++ t = b ++ t -> a = b.
Proof.
  revert b. induction a as [| c a IH]; intros [| c' b] H; simpl in H.
  - reflexivity.
  - apply (f_equal String.length) in H. simpl in H.
    rewrite length_append in H. lia.
  - apply (f_equal String.length) in H. simpl in H.
    rewrite length_append in H. lia.
  - injection H as -> H. f_equal. exact (IH _ H).
Qed.

Section WebhookResult.

Variable rt : Runtime.
Variable cfg : Config.
Variable w : World.

(** The key of a write is derived from the id of the body. *)
Lemma webhook_written_key (webhook_data : dict)
    Bucket Key Body ContentType out :
  In (S3PutObject Bucket Key Body ContentType out)
    (snd (post_webhook rt cfg w webhook_data)) ->
  exists data,
    dict_get_or webhook_data "data" (JDict []) = JDict data
    /\ Key = output_key rt (dict_get_or data "id" JNull).
Proof.
  split_run; cbn [In]; intros H; clean_events.
  all: eexists; split; [reflexivity | ].
  all: unfold dict_get_or;
       repeat match goal with
              | E : dict_get _ _ = _ |- _ => rewrite E
              end;
       reflexivity.
Qed.

(** X10. The calls of a webhook run, in order: the pointer request for the
    id of the body, sent with the license header; then the download, sent
    without headers to the "presigned_url" of the pointer response; then one
    write of the downloaded bytes, as text/csv, under the key of the id in
    the configured bucket.  Nothing is read from the object store and
    nothing is posted or put. *)
Theorem webhook_calls (webhook_data : dict) :
  snd (post_webhook rt cfg w webhook_data) = []
  \/ exists data import_id,
       dict_get_or webhook_data "data" (JDict []) = JDict data
       /\ dict_get_or data "id" JNull = import_id
       /\ ((exists out,
              snd (post_webhook rt cfg w webhook_data)
              = [HttpGet (pointer_url rt import_id)
                   (Some (pointer_headers cfg)) out])
           \/ (exists pointer_response presigned_data download_url out,
                 json pointer_response = Returned (JDict presigned_data)
                 /\ dict_get presigned_data "presigned_url" = Some download_url
                 /\ snd (post_webhook rt cfg w webhook_data)
                    = [HttpGet (pointer_url rt import_id)
                         (Some (pointer_headers cfg))
                         (Returned pointer_response);
                       HttpGet download_url None out])
           \/ (exists pointer_response presigned_data download_url
                      download_response out,
                 json pointer_response = Returned (JDict presigned_data)
                 /\ dict_get presigned_data "presigned_url" = Some download_url
                 /\ snd (post_webhook rt cfg w webhook_data)
                    = [HttpGet (pointer_url rt import_id)
                         (Some (pointer_headers cfg))
                         (Returned pointer_response);
                       HttpGet download_url None (Returned download_response);
                       S3PutObject (AWS_S3_BUCKET cfg)
                         (output_key rt import_id)
                         (content download_response) "text/csv" out])).
Proof.
  split_run; cbn [app]; try (left; reflexivity); right.
  all: do 2 eexists; split; [reflexivity | ].
  all: unfold dict_get_or;
       repeat match goal with
              | E : dict_get _ "id" = _ |- _ => rewrite E
              end;
       (split; [reflexivity | ]).
  all: try match goal with
           | E : truthy JNull = true |- _ => discriminate E
           end.
  all: first [ left; eexists; reflexivity
             | right; left; do 4 eexists;
               split; [eassumption | split; [eassumption | reflexivity]]
             | right; right; do 5 eexists;
               split; [eassumption | split; [eassumption | reflexivity]] ].
Qed.

(** X11. Whatever is written to the object store was downloaded: a write in
    the trace comes after a pointer response and a download response that
    [raise_for_status] both accepted, its body is the content of the
    download response and its content type is "text/csv". *)
Theorem webhook_write_follows_download (webhook_data : dict)
    (reply : http_reply) (tr : trace) :
  post_webhook rt cfg w webhook_data = (reply, tr) ->
  forall Bucket Key Body ContentType out,
    In (S3PutObject Bucket Key Body ContentType out) tr ->
  exists pointer_url hs pointer_response download_url download_response,
    tr = [HttpGet pointer_url (Some hs) (Returned pointer_response);
          HttpGet download_url None (Returned download_response);
          S3PutObject Bucket Key Body ContentType out]
    /\ raises_for_status rt (status_code pointer_response) = false
    /\ raises_for_status rt (status_code download_response) = false
    /\ Body = content download_response
    /\ ContentType = "text/csv"
    /\ Bucket = AWS_S3_BUCKET cfg.
Proof.
  intros Hrun Bucket Key Body ContentType out Hin.
  by_cases rt Hrun.
  all: do 5 eexists; repeat split; eauto.
Qed.

(** X13. The result handling returns the key only when the write went
    through, and then the write is its last call; a request or a write that
    raises is raised again as it is, neither wrapped nor swallowed. *)
Theorem download_and_save_outcome
    (import_id : value) (r : result string) (tr : trace) :
  download_and_save_processed_data rt cfg w import_id [] = (r, tr) ->
  match r with
  | Returned key =>
      key = output_key rt import_id
      /\ exists pointer_response download_url download_response,
           tr = [HttpGet (pointer_url rt import_id)
                   (Some (pointer_headers cfg)) (Returned pointer_response);
                 HttpGet download_url None (Returned download_response);
                 S3PutObject (AWS_S3_BUCKET cfg) key
                   (content download_response) "text/csv" (Returned tt)]
  | Threw e =>
      (forall url hs m,
          In (HttpGet url hs (Threw (RequestFailed m))) tr ->
          e = OtherException m)
      /\ (forall Bucket Key Body ContentType s3e,
             In (S3PutObject Bucket Key Body ContentType (Threw s3e)) tr ->
             e = exn_of_s3 s3e)
      /\ (forall Bucket Key Body ContentType,
             ~ In (S3PutObject Bucket Key Body ContentType (Returned tt)) tr)
  end.
Proof.
  intros Hrun. name_run Hrun.
  split_run; cbn [In].
  all: try match goal with
           | E : truthy JNull = true |- _ => discriminate E
           end.
  all: repeat match goal with u : unit |- _ => destruct u end.
  all: try (split; [reflexivity | do 3 eexists; reflexivity]).
  all: repeat split; unfold not; intros; clean_events; try reflexivity.
Qed.

End WebhookResult.

(** X12. Notifications with different string ids never write under the
    same key, whatever the configurations and the worlds of their runs. *)
Theorem webhook_keys_do_not_collide
    (rt : Runtime) (cfg cfg' : Config) (w w' : World)
    (webhook_data webhook_data' data data' : dict) (j j' : string) :
  dict_get webhook_data "data" = Some (JDict data) ->
  dict_get data "id" = Some (JStr j) ->
  dict_get webhook_data' "data" = Some (JDict data') ->
  dict_get data' "id" = Some (JStr j') ->
  forall Key Bucket Body ContentType out Bucket' Body' ContentType' out',
    In (S3PutObject Bucket Key Body ContentType out)
      (snd (post_webhook rt cfg w webhook_data)) ->
    In (S3PutObject Bucket' Key Body' ContentType' out')
      (snd (post_webhook rt cfg' w' webhook_data')) ->
  j = j'.
Proof.
  intros Hdata Hid Hdata' Hid' Key Bucket Body ContentType out
    Bucket' Body' ContentType' out' Hin Hin'.
  apply webhook_written_key in Hin as (d & Hd & HK).
  apply webhook_written_key in Hin' as (d' & Hd' & HK').
  unfold dict_get_or in *.
  rewrite Hdata in Hd. injection Hd as <-.
  rewrite Hdata' in Hd'. injection Hd' as <-.
  rewrite Hid in HK. rewrite Hid' in HK'.
  unfold output_key, py_str in *. subst Key.
  apply append_cancel_l in HK'. apply append_cancel_r in HK'.
  congruence.
Qed.


(** ** Instances on the sample worlds *)


Lemma import_file_missing_id_witness :
  reply_status
    (fst (post_import_file Sample.runtime Sample.config Sample.no_id
            Sample.request)) = 500
  /\ forall target body out,
       ~ In (HttpPut target body out)
           (snd (post_import_file Sample.runtime Sample.config Sample.no_id
                   Sample.request)).
Proof.
  assert (Hpost :
    In (HttpPost create_url (create_payload Sample.config Sample.request)
          (create_headers Sample.config)
          (Returned (Sample.ok_response (JDict Sample.created_no_id))))
       (snd (post_import_file Sample.runtime Sample.config Sample.no_id
               Sample.request)))
    by (right; left; reflexivity).
  assert (Hst : succeeded (Sample.ok_response (JDict Sample.created_no_id)))
    by (unfold succeeded; simpl; lia).
  destruct (import_file_missing_id Sample.runtime Sample.config Sample.no_id
              Sample.request _ _ eq_refl _ _ _ _ Sample.created_no_id
              Hpost Hst eq_refl eq_refl) as [H1 H2].
  split; [exact (f_equal reply_status H1) | exact H2].
Defined.

Lemma import_file_body_not_an_object_witness :
  reply_status
    (fst (post_import_file Sample.runtime Sample.config Sample.list_body
            Sample.request)) = 500
  /\ forall target body out,
       ~ In (HttpPut target body out)
           (snd (post_import_file Sample.runtime Sample.config
                   Sample.list_body Sample.request)).
Proof.
  apply (import_file_body_not_an_object Sample.runtime Sample.config
           Sample.list_body Sample.request _ _ eq_refl
           create_url (create_payload Sample.config Sample.request)
           (create_headers Sample.config)
           (Sample.ok_response (JList [JStr "id"; JStr "upload_url"]))).
  - right. left. reflexivity.
  - unfold succeeded. simpl. lia.
  - intros d H. discriminate H.
Defined.

Lemma import_file_transport_failure_witness :
  fst (post_import_file Sample.runtime Sample.config Sample.create_unreachable
         Sample.request)
  = error_reply 500 "Failed to start import: connection refused".
Proof.
  apply (import_file_transport_failure Sample.runtime Sample.config
           Sample.create_unreachable Sample.request _ _ eq_refl
           "connection refused").
  left. do 3 eexists. right. left. reflexivity.
Defined.


Lemma webhook_write_follows_download_witness :
  exists pointer_url hs pointer_response download_url download_response,
    snd (post_webhook Sample.runtime Sample.config Sample.happy
           (Sample.notification (JStr "job123") (JStr "SUCCESSFUL")))
    = [HttpGet pointer_url (Some hs) (Returned pointer_response);
       HttpGet download_url None (Returned download_response);
       S3PutObject (Some "bucket") "processed/job123.csv" Sample.csv
         "text/csv" (Returned tt)]
    /\ raises_for_status Sample.runtime (status_code pointer_response) = false
    /\ raises_for_status Sample.runtime (status_code download_response) = false
    /\ Sample.csv = content download_response
    /\ "text/csv" = "text/csv"
    /\ Some "bucket" = AWS_S3_BUCKET Sample.config.
Proof.
  apply (webhook_write_follows_download Sample.runtime Sample.config
           Sample.happy
           (Sample.notification (JStr "job123") (JStr "SUCCESSFUL"))
           _ _ eq_refl
           (Some "bucket") "processed/job123.csv" Sample.csv "text/csv"
           (Returned tt)).
  right. right. left. reflexivity.
Defined.

Lemma webhook_keys_do_not_collide_witness : "job123" = "job123".
Proof.
  apply (webhook_keys_do_not_collide Sample.runtime
           Sample.config Sample.config_no_license Sample.happy Sample.happy
           (Sample.notification (JStr "job123") (JStr "SUCCESSFUL"))
           (Sample.notification (JStr "job123") (JStr "SUCCESSFUL"))
           [("id", JStr "job123"); ("status", JStr "SUCCESSFUL")]
           [("id", JStr "job123"); ("status", JStr "SUCCESSFUL")]
           "job123" "job123" eq_refl eq_refl eq_refl eq_refl
           "processed/job123.csv"
           (Some "bucket") Sample.csv "text/csv" (Returned tt)
           (Some "bucket") Sample.csv "text/csv" (Returned tt)).
  - right. right. left. reflexivity.
  - right. right. left. reflexivity.
Defined.

Lemma download_and_save_outcome_witness :
  "processed/job123.csv" = output_key Sample.runtime (JStr "job123")
  /\ exists pointer_response download_url download_response,
       snd (download_and_save_processed_data Sample.runtime Sample.config
              Sample.happy (JStr "job123") [])
       = [HttpGet (pointer_url Sample.runtime (JStr "job123"))
            (Some (pointer_headers Sample.config))
            (Returned pointer_response);
          HttpGet download_url None (Returned download_response);
          S3PutObject (AWS_S3_BUCKET Sample.config) "processed/job123.csv"
            (content download_response) "text/csv" (Returned tt)].
Proof.
  exact (download_and_save_outcome Sample.runtime Sample.config Sample.happy
           (JStr "job123") (Returned "processed/job123.csv") _ eq_refl).
Defined.
